(** * PGKeeper: a shallow embedding of [src/PGKeeper.py]

    The program is a command-line driver around the PostgreSQL tools
    [pg_dump], [pg_restore] and [psql].  Its two commands, [backup] and
    [restore], compute an argument vector, put the password into a copy of
    the process environment and hand both to [subprocess.run].

    The embedding follows the source line by line:
    - Python strings are [string], the [int] port is a [Z], the command is a
      [list string], a [dict] is a [gmap string string];
    - the calls into the platform ([os.makedirs], [os.path.isdir],
      [os.environ.copy], [subprocess.run], [logging], [click.echo]) are
      operations of a small state-and-exception monad [Py] over a [World]
      holding the file system, the store of dictionary objects and the
      trace of observable events;
    - [try]/[except] is [try_except], an early [return] is a flag. *)

From Stdlib Require Import ZArith String Ascii List DecimalString.
From Stdlib Require Import DecimalZ DecimalPos.
From stdpp Require Import base strings gmap list.

Open Scope string_scope.

(** ** Python string primitives used by the program *)

Module PyStr.

(** [str(n)] for an [int]: decimal digits, a leading minus sign for
    negative numbers. *)
Definition str (n : Z) : string := NilZero.string_of_int (Z.to_int n).

(** [s.startswith(p)] *)
Definition startswith (s p : string) : bool := String.prefix p s.

(** [s.endswith(suf)] *)
Definition endswith (s suf : string) : bool :=
  bool_decide (list_ascii_of_string suf `suffix_of` list_ascii_of_string s).

(** [sep.join(l)] *)
Definition join (sep : string) (l : list string) : string := String.concat sep l.

(** [os.path.join(a, b)] of [posixpath], for one component [b]: an
    absolute [b] replaces [a]; otherwise the separator is inserted unless
    [a] is empty or already ends with it. *)
Definition os_path_join (a b : string) : string :=
  if startswith b "/" then b
  else if (a =? EmptyString) || endswith a "/" then a +:+ b
  else a +:+ "/" +:+ b.

End PyStr.
Import PyStr.

(** ** The pure part of [backup] and [restore]: paths and argument vectors *)

(** The four values [click.Choice(['c', 'd', 't', 'p'])] lets through as
    [--format]. *)
Inductive DumpFormat := Custom | Directory | Tar | Plain.

Definition format_choice (f : DumpFormat) : string :=
  match f with Custom => "c" | Directory => "d" | Tar => "t" | Plain => "p" end.

(** What a file-system entry is. *)
Inductive Entry := IsFile | IsDir.

#[global] Instance Entry_eq_dec : EqDecision Entry.
Proof. solve_decision. Defined.

(** Line 69: the extension of a file-format dump. *)
Definition file_ext (dump_format : string) : string :=
  if dump_format =? "c" then ".dump"
  else if dump_format =? "t" then ".tar"
  else ".sql".

(** Lines 65-70: the time-stamped path of the artifact. *)
Definition backup_path (backup_dir dbname timestamp dump_format : string) : string :=
  if dump_format =? "d" then
    os_path_join backup_dir ("backup_" +:+ dbname +:+ "_" +:+ timestamp)
  else
    os_path_join backup_dir
      ("backup_" +:+ dbname +:+ "_" +:+ timestamp +:+ file_ext dump_format).

(** The kind of entry [pg_dump] is asked to write: a directory for format
    [d] ("d (directory)" in the help of [--format], "The backup file (or
    directory, if dump format is 'd')" in the docstring, lines 59-61), a
    file otherwise. *)
Definition artifact_shape (dump_format : string) : Entry :=
  if dump_format =? "d" then IsDir else IsFile.

(** Lines 84-106: the [pg_dump] command. *)
Definition backup_cmd (host : string) (port : Z)
    (username dbname dump_format backup_path : string) : list string :=
  if dump_format =? "d" then
    [ "pg_dump";
      "-h"; host;
      "-p"; str port;
      "-U"; username;
      "-F"; dump_format;
      "-v";
      "-f"; backup_path;
      dbname ]
  else
    [ "pg_dump";
      "-h"; host;
      "-p"; str port;
      "-U"; username;
      "-F"; dump_format;
      "-b";
      "-v";
      "-f"; backup_path;
      dbname ].

(** Lines 139-170: the restore command; [isdir] is the value of
    [os.path.isdir(backup_file)]. *)
Definition restore_cmd (isdir : bool) (host : string) (port : Z)
    (username dbname backup_file : string) : list string :=
  if isdir then
    [ "pg_restore";
      "-h"; host;
      "-p"; str port;
      "-U"; username;
      "-d"; dbname;
      "-v";
      backup_file ]
  else if endswith backup_file ".sql" then
    [ "psql";
      "-h"; host;
      "-p"; str port;
      "-U"; username;
      "-d"; dbname;
      "-f"; backup_file ]
  else
    [ "pg_restore";
      "-h"; host;
      "-p"; str port;
      "-U"; username;
      "-d"; dbname;
      "-v";
      backup_file ].

(** ** The platform: file system, dictionary objects, child processes *)

(** Exceptions the program can meet.  [OSError] stands for the whole
    family raised by the operating-system calls ([FileNotFoundError],
    [PermissionError], [FileExistsError], ...) and carries its text;
    [CalledProcessError] is what [subprocess.run(..., check=True)] raises
    for a non-zero exit status. *)
Inductive Exn :=
  | OSError (msg : string)
  | CalledProcessError (returncode : Z) (cmd : list string).

(** What becomes of a command handed to [subprocess.run]: the program
    could not be started, or it ran and exited with a status. *)
Inductive ProcResult :=
  | Exited (returncode : Z)
  | LaunchFailed (msg : string).

Inductive Level := DEBUG | INFO | ERROR.

(** A message: a string, or an f-string ending in [{e}] for an exception
    [e] (kept as the exception itself). *)
Inductive Text :=
  | Str (s : string)
  | StrExn (s : string) (e : Exn).

(** Observable events, oldest first in a trace.  [Run] is the call of
    [subprocess.run], recorded whether or not the program could then be
    started. *)
Inductive Event :=
  | Log (lvl : Level) (t : Text)
  | Echo (t : Text)
  | Run (cmd : list string) (env : gmap string string).

(** Dictionary objects live in a store and are named by their address, so
    that two names of one object see each other's updates. *)
Abbreviation loc := nat (only parsing).
Abbreviation dict := (gmap string string) (only parsing).

Record World := mkWorld {
  fs : gmap string Entry;          (* the file system, by path as written *)
  heap : gmap loc dict;            (* the dictionary objects *)
  trace : list Event;              (* what has been logged, echoed, run *)
  clock : string;                  (* datetime.now().strftime("%Y%m%d_%H%M%S") *)
  mkdir_denied : string → option string;  (* the system refuses to create this directory *)
  child : list string → dict → ProcResult (* what running a command does *)
}.

Definition set_fs (m : gmap string Entry) (w : World) : World :=
  mkWorld m (heap w) (trace w) (clock w) (mkdir_denied w) (child w).
Definition set_heap (h : gmap loc dict) (w : World) : World :=
  mkWorld (fs w) h (trace w) (clock w) (mkdir_denied w) (child w).
Definition set_trace (t : list Event) (w : World) : World :=
  mkWorld (fs w) (heap w) t (clock w) (mkdir_denied w) (child w).

(** [os.environ] is one fixed object of the store. *)
Definition environ_loc : loc := 0%nat.
Definition deref (w : World) (l : loc) : dict := default ∅ (heap w !! l).
Definition environ (w : World) : dict := deref w environ_loc.

(** The commands run so far, with the environment each one was given. *)
Definition runs (t : list Event) : list (list string * dict) :=
  omap (λ e, match e with Run cmd env => Some (cmd, env) | _ => None end) t.

(** ** The monad of a Python function body *)

Inductive Result (A : Type) :=
  | Ok (a : A)
  | Raised (e : Exn).
Arguments Ok {A} a.
Arguments Raised {A} e.

Definition Py (A : Type) : Type := World → World * Result A.

#[global] Instance Py_ret : MRet Py := λ A a w, (w, Ok a).
#[global] Instance Py_bind : MBind Py := λ A B f m w,
  match m w with
  | (w', Ok a) => f a w'
  | (w', Raised e) => (w', Raised e)
  end.

(** [try: body / except <catches> as e: handler e] *)
Definition try_except {A} (body : Py A) (catches : Exn → bool)
    (handler : Exn → Py A) : Py A := λ w,
  match body w with
  | (w', Ok a) => (w', Ok a)
  | (w', Raised e) => if catches e then handler e w' else (w', Raised e)
  end.

(** [except Exception] *)
Definition Exception (e : Exn) : bool := true.
(** [except subprocess.CalledProcessError] *)
Definition subprocess_CalledProcessError (e : Exn) : bool :=
  match e with CalledProcessError _ _ => true | OSError _ => false end.

Definition emit (e : Event) : Py unit := λ w,
  (set_trace (trace w ++ [e]) w, Ok tt).

Definition logging_debug (t : Text) : Py unit := emit (Log DEBUG t).
Definition logging_info (t : Text) : Py unit := emit (Log INFO t).
Definition logging_error (t : Text) : Py unit := emit (Log ERROR t).
Definition click_echo (t : Text) : Py unit := emit (Echo t).

Definition datetime_now_strftime : Py string := λ w, (w, Ok (clock w)).

(** [os.path.isdir(p)]: false for a file and for a path that does not
    exist. *)
Definition os_path_isdir (p : string) : Py bool := λ w,
  (w, Ok (bool_decide (fs w !! p = Some IsDir))).

(** The directories above [s]: its proper prefixes that end before a
    separator ([pre] is what has been read already). *)
Fixpoint parents (pre s : string) : list string :=
  match s with
  | EmptyString => []
  | String c s' =>
      (if Ascii.eqb c "/" && negb (pre =? EmptyString) then [pre] else [])
      ++ parents (pre +:+ String c EmptyString) s'
  end.

Definition mkdir_missing (d : string) (m : gmap string Entry) : gmap string Entry :=
  match m !! d with
  | None => <[d := IsDir]> m
  | Some _ => m
  end.

(** What [os.makedirs(name, exist_ok=...)] does to the file system [m]:
    the new file system, or the text of the [OSError] it raises.  An
    existing directory is left alone when [exist_ok] holds; otherwise
    [name] and the missing directories above it are created, unless a
    file is in the way or the system refuses ([denied]). *)
Definition makedirs (m : gmap string Entry) (denied : string → option string)
    (name : string) (exist_ok : bool) : gmap string Entry + string :=
  match m !! name with
  | Some IsDir => if exist_ok then inl m else inr "[Errno 17] File exists"
  | Some IsFile => inr "[Errno 17] File exists"
  | None =>
      if name =? EmptyString then inr "[Errno 2] No such file or directory"
      else if existsb (λ d, bool_decide (m !! d = Some IsFile)) (parents EmptyString name)
      then inr "[Errno 20] Not a directory"
      else match denied name with
           | Some msg => inr msg
           | None => inl (foldr mkdir_missing m (name :: parents EmptyString name))
           end
  end.

Definition os_makedirs (name : string) (exist_ok : bool) : Py unit := λ w,
  match makedirs (fs w) (mkdir_denied w) name exist_ok with
  | inl m => (set_fs m w, Ok tt)
  | inr msg => (w, Raised (OSError msg))
  end.

(** [os.environ.copy()]: a new dictionary object with the same content. *)
Definition os_environ_copy : Py loc := λ w,
  let l := fresh ({[environ_loc]} ∪ dom (heap w)) in
  (set_heap (<[l := environ w]> (heap w)) w, Ok l).

(** [d[k] = v] on the object at [l]. *)
Definition dict_setitem (l : loc) (k v : string) : Py unit := λ w,
  (set_heap (<[l := <[k := v]> (deref w l)]> (heap w)) w, Ok tt).

(** [subprocess.run(cmd, env=env, check=check)]; the effects of the child
    on the file system are the child's, not the program's, and are not
    part of this model. *)
Definition subprocess_run (cmd : list string) (env : loc) (check : bool) : Py unit := λ w,
  let e := deref w env in
  let w' := set_trace (trace w ++ [Run cmd e]) w in
  match child w cmd e with
  | LaunchFailed msg => (w', Raised (OSError msg))
  | Exited rc =>
      if check && negb (rc =? 0)%Z then (w', Raised (CalledProcessError rc cmd))
      else (w', Ok tt)
  end.

(** ** The two commands *)

(** Lines 55-115. *)
Definition backup (host : string) (port : Z)
    (username dbname backup_dir dump_format password : string) : Py unit :=
  timestamp ← datetime_now_strftime;
  let backup_path := backup_path backup_dir dbname timestamp dump_format in
  created ← try_except
    (os_makedirs backup_dir true;;
     logging_info (Str ("Backup directory ensured: " +:+ backup_dir));;
     mret true)
    Exception
    (λ e,
     logging_error (StrExn "Failed to create backup directory: " e);;
     mret false);
  if created : bool then
    env ← os_environ_copy;
    dict_setitem env "PGPASSWORD" password;;
    let cmd := backup_cmd host port username dbname dump_format backup_path in
    logging_debug (Str ("Running command: " +:+ join " " cmd));;
    try_except
      (subprocess_run cmd env true;;
       logging_info (Str ("Backup completed successfully. Backup file/directory: " +:+ backup_path));;
       click_echo (Str ("Backup completed successfully. Backup file/directory: " +:+ backup_path)))
      subprocess_CalledProcessError
      (λ e,
       logging_error (StrExn "Backup failed: " e);;
       click_echo (StrExn "Backup failed: " e))
  else mret tt.

(** Lines 127-179. *)
Definition restore (host : string) (port : Z)
    (username dbname backup_file password : string) : Py unit :=
  env ← os_environ_copy;
  dict_setitem env "PGPASSWORD" password;;
  isdir ← os_path_isdir backup_file;
  let cmd := restore_cmd isdir host port username dbname backup_file in
  logging_debug (Str ("Running command: " +:+ join " " cmd));;
  try_except
    (subprocess_run cmd env true;;
     logging_info (Str "Restore completed successfully.");;
     click_echo (Str "Restore completed successfully."))
    subprocess_CalledProcessError
    (λ e,
     logging_error (StrExn "Restore failed: " e);;
     click_echo (StrExn "Restore failed: " e)).

(** ** Reading a run *)

(** The environment handed to the child. *)
Definition child_env (w : World) (password : string) : dict :=
  <["PGPASSWORD" := password]> (environ w).

(** The world once the command has been handed to [subprocess.run]: [m] is
    the file system by then, [pre] the events before the run and [post]
    the events after it. *)
Definition ran (w : World) (m : gmap string Entry) (password : string)
    (pre : list Event) (cmd : list string) (post : list Event) : World :=
  mkWorld m
    (<[fresh ({[environ_loc]} ∪ dom (heap w)) := child_env w password]> (heap w))
    (trace w ++ pre ++ [Run cmd (child_env w password)] ++ post)
    (clock w) (mkdir_denied w) (child w).

(** The events a run added to the trace it started from. *)
Definition events_since (w w' : World) : list Event :=
  drop (length (trace w)) (trace w').

(** Example worlds: an empty file system, the environment of a shell. *)
Definition shell_environ : dict :=
  <["HOME" := "/home/alice"]> {["PATH" := "/usr/bin"]}.

Definition world_of (m : gmap string Entry) (now : string)
    (denied : string → option string) (out : ProcResult) : World :=
  mkWorld m {[environ_loc := shell_environ]} [] now denied (λ _ _, out).

Definition fresh_world (out : ProcResult) : World :=
  world_of ∅ "20240101_120000" (λ _, None) out.

Definition readonly_world : World :=
  world_of ∅ "20240101_120000" (λ _, Some "[Errno 13] Permission denied") (Exited 0).



(** The reading of the specification in which a restore whose artifact
    path does not exist runs no command and ends in an error. *)
Definition restore_stops_on_missing_artifact : Prop :=
  ∀ host port username dbname backup_file password w,
    fs w !! backup_file = None →
    runs (events_since w
      (restore host port username dbname backup_file password w).1) = []
    ∧ ∃ e, (restore host port username dbname backup_file password w).2 = Raised e.

(** The reading of the specification in which a command that cannot be
    started is reported like one that exits with a non-zero status: the
    operation returns after echoing its failure message. *)
Definition launch_failure_is_reported : Prop :=
  ∀ host port username dbname backup_file password w msg,
    child w
      (restore_cmd (bool_decide (fs w !! backup_file = Some IsDir))
         host port username dbname backup_file)
      (child_env w password) = LaunchFailed msg →
    (restore host port username dbname backup_file password w).2 = Ok tt
    ∧ ∃ e, last (events_since w
                   (restore host port username dbname backup_file password w).1)
           = Some (Echo (StrExn "Restore failed: " e)).

(** ** The rest of the program: time stamp, logging set-up, what is reported *)

(** [datetime.now()], as far as line 64 reads it. *)
Record datetime := mkDatetime {
  year : Z; month : Z; day : Z;
  hour : Z; minute : Z; second : Z
}.

(** The dates and times a [datetime] with a year of four digits can hold. *)
Definition datetime_ok (dt : datetime) : bool :=
  ((1000 <=? year dt) && (year dt <=? 9999)
   && (1 <=? month dt) && (month dt <=? 12)
   && (1 <=? day dt) && (day dt <=? 31)
   && (0 <=? hour dt) && (hour dt <=? 23)
   && (0 <=? minute dt) && (minute dt <=? 59)
   && (0 <=? second dt) && (second dt <=? 59))%Z.

(** [%m], [%d], [%H], [%M], [%S]: two digits, zero-padded. *)
Definition pad2 (n : Z) : string :=
  if (n <? 10)%Z then "0" +:+ str n else str n.

(** Line 64: [dt.strftime("%Y%m%d_%H%M%S")]; [%Y] is the year in decimal,
    four digits from the year 1000 on. *)
Definition strftime_Ymd_HMS (dt : datetime) : string :=
  str (year dt) +:+ pad2 (month dt) +:+ pad2 (day dt) +:+ "_"
  +:+ pad2 (hour dt) +:+ pad2 (minute dt) +:+ pad2 (second dt).

(** The values [click.Choice] lets through as [--log-level], lines 12-14. *)
Inductive LogLevelChoice := ChDEBUG | ChINFO | ChWARNING | ChERROR | ChCRITICAL.

Definition log_level_choice (c : LogLevelChoice) : string :=
  match c with
  | ChDEBUG => "DEBUG" | ChINFO => "INFO" | ChWARNING => "WARNING"
  | ChERROR => "ERROR" | ChCRITICAL => "CRITICAL"
  end.

(** [s.upper()] for a string of ASCII characters, which is all [cli]
    applies it to (the names that [click.Choice] lets through): the
    letters [a]-[z] become [A]-[Z], every other character is kept. *)
Definition upper_ascii (c : ascii) : ascii :=
  let n := nat_of_ascii c in
  if Nat.leb 97 n && Nat.leb n 122 then ascii_of_nat (n - 32) else c.

Fixpoint upper (s : string) : string :=
  match s with
  | EmptyString => EmptyString
  | String c s' => String (upper_ascii c) (upper s')
  end.

(** The attributes of the module [logging] that an upper-cased name can
    reach and that are an [int]: the level constants. *)
Definition logging_levels : list (string * Z) :=
  [("CRITICAL", 50); ("FATAL", 50); ("ERROR", 40); ("WARNING", 30);
   ("WARN", 30); ("INFO", 20); ("DEBUG", 10); ("NOTSET", 0)]%Z.

(** [getattr(logging, name, None)] when it is an [int], [None] when the
    attribute is missing or is something else (line 26 with the test of
    line 27). *)
Definition logging_getattr_int (name : string) : option Z :=
  (list_to_map logging_levels : gmap string Z) !! name.

Inductive Handler :=
  | StreamHandler
  | FileHandler (filename : string).

(** What [cli] hands to [logging.basicConfig]. *)
Record LoggingConfig := mkLoggingConfig {
  level : Z;
  handlers : list Handler
}.

(** Why opening [filename] for appending fails, if it does: a directory
    has that name, a file is where a directory above it should be, or the
    system refuses ([denied]: a missing directory, missing rights, ...). *)
Definition open_error (m : gmap string Entry) (denied : string → option string)
    (filename : string) : option string :=
  match m !! filename with
  | Some IsDir => Some "[Errno 21] Is a directory"
  | _ =>
      if existsb (λ d, bool_decide (m !! d = Some IsFile)) (parents EmptyString filename)
      then Some "[Errno 20] Not a directory"
      else denied filename
  end.

(** [logging.FileHandler(filename)], line 32: the handler opens its file
    for appending when it is built, which creates a missing file and
    raises [OSError] when the file cannot be opened. *)
Definition logging_FileHandler (denied : string → option string)
    (filename : string) : Py Handler := λ w,
  match open_error (fs w) denied filename with
  | Some msg => (w, Raised (OSError msg))
  | None =>
      (set_fs (match fs w !! filename with
               | None => <[filename := IsFile]> (fs w)
               | Some _ => fs w
               end) w,
       Ok (FileHandler filename))
  end.

(** Lines 18-40.  [log_level] is one of the names [click.Choice] lets
    through (line 13); [inl] is [raise click.BadParameter(...)] with its
    message; [open_denied] is the system's refusal to open the log file.
    The value is what [logging.basicConfig] is called with. *)
Definition cli (open_denied : string → option string)
    (log_level : LogLevelChoice) (log_file : string) : Py (string + LoggingConfig) :=
  match logging_getattr_int (upper (log_level_choice log_level)) with
  | None => mret (inl ("Invalid log level: " +:+ log_level_choice log_level))
  | Some numeric_level =>
      handlers ←
        (if log_file =? EmptyString then mret [StreamHandler]
         else h ← logging_FileHandler open_denied log_file;
              mret [StreamHandler; h]);
      logging_info (Str "Starting PGKeeper for PostgreSQL backup and restore");;
      mret (inr (mkLoggingConfig numeric_level handlers))
  end.

(** The numeric value of a level, as [logging] has it. *)
Definition levelno (l : Level) : Z :=
  match l with DEBUG => 10 | INFO => 20 | ERROR => 40 end.

(** The records that pass the root logger when its level is [lvl]: those
    of a level at least [lvl]. *)
Definition emitted (lvl : Z) (t : list Event) : list Text :=
  omap (λ e, match e with
             | Log l m => if (lvl <=? levelno l)%Z then Some m else None
             | _ => None
             end) t.

(** What [click.echo] printed. *)
Definition echoed (t : list Event) : list Text :=
  omap (λ e, match e with Echo m => Some m | _ => None end) t.

(** The records logged at DEBUG. *)
Definition debug_records (t : list Event) : list Text :=
  omap (λ e, match e with Log DEBUG m => Some m | _ => None end) t.

(** Everything logged or echoed, in order: the trace without the runs. *)
Definition reports (t : list Event) : list Event :=
  omap (λ e, match e with Run _ _ => None | _ => Some e end) t.

(** [p z], [p (z + 1)], ..., [n] of them: a bounded check that runs. *)
Fixpoint all_from (n : nat) (z : Z) (p : Z → bool) : bool :=
  match n with
  | O => true
  | S n' => p z && all_from n' (z + 1)%Z p
  end.

(** The extension line 69 chooses, and none for the directory format. *)
Definition artifact_ext (f : DumpFormat) : string :=
  match f with
  | Directory => EmptyString
  | Custom => ".dump" | Tar => ".tar" | Plain => ".sql"
  end.

(** What precedes the time stamp in an artifact path. *)
Definition path_prefix (backup_dir dbname : string) : string :=
  ((if (backup_dir =? EmptyString) || endswith backup_dir "/"
    then backup_dir else backup_dir +:+ "/") +:+ "backup_" +:+ dbname) +:+ "_".

(** ** Facts about strings and paths *)

Module StrFacts.

Lemma append_cons c s t : String c s +:+ t = String c (s +:+ t).
Proof. reflexivity. Qed.

Lemma length_append s t :
  String.length (s +:+ t) = (String.length s + String.length t)%nat.
Proof.
  induction s as [|c s IH]; [reflexivity|].
  rewrite append_cons. cbn. now rewrite IH.
Qed.

Lemma append_assoc s t u : (s +:+ t) +:+ u = s +:+ (t +:+ u).
Proof.
  induction s as [|c s IH]; [reflexivity|].
  rewrite !append_cons. now rewrite IH.
Qed.

Lemma list_ascii_append s t :
  list_ascii_of_string (s +:+ t)
  = (list_ascii_of_string s ++ list_ascii_of_string t)%list.
Proof.
  induction s as [|c s IH]; [reflexivity|].
  rewrite append_cons. cbn. now rewrite IH.
Qed.

(** [endswith] is the suffix test it is meant to be. *)
Lemma endswith_spec s suf :
  endswith s suf = true ↔ ∃ stem, s = stem +:+ suf.
Proof.
  unfold endswith. rewrite bool_decide_eq_true. split.
  - intros [k Hk]. exists (string_of_list_ascii k).
    rewrite <- (string_of_list_ascii_of_string s).
    rewrite <- (string_of_list_ascii_of_string (string_of_list_ascii k +:+ suf)).
    f_equal. now rewrite list_ascii_append, list_ascii_of_string_of_list_ascii.
  - intros [stem ->]. exists (list_ascii_of_string stem).
    apply list_ascii_append.
Qed.

(** A name that starts with [backup_] is never absolute, so joining it
    to a directory keeps the directory in front. *)
Lemma os_path_join_backup dir x :
  os_path_join dir ("backup_" +:+ x)
  = (if (dir =? EmptyString) || endswith dir "/" then dir else dir +:+ "/")
    +:+ "backup_" +:+ x.
Proof.
  unfold os_path_join.
  change (startswith ("backup_" +:+ x) "/") with false. cbv iota.
  destruct ((dir =? EmptyString) || endswith dir "/"); [reflexivity|].
  now rewrite append_assoc.
Qed.




End StrFacts.
Import StrFacts.

(** The primitives on the inputs of the scenarios. *)

Example str_port : str 5432 = "5432" ∧ str 0 = "0" ∧ str (-1) = "-1".
Proof. repeat split. Qed.

Example endswith_sql :
  endswith "./dump.sql" ".sql" = true
  ∧ endswith "./dump.sql.gz" ".sql" = false
  ∧ endswith "sql" ".sql" = false.
Proof. repeat split. Qed.

Example os_path_join_cases :
  os_path_join "./backups" "backup_orders_20240101_120000"
  = "./backups/backup_orders_20240101_120000"
  ∧ os_path_join "/var/backups/" "x.tar" = "/var/backups/x.tar"
  ∧ os_path_join EmptyString "x.tar" = "x.tar"
  ∧ os_path_join "./backups" "/tmp/x" = "/tmp/x".
Proof. repeat split. Qed.

Example parents_cases :
  parents EmptyString "/var/lib/backups" = ["/var"; "/var/lib"]
  ∧ parents EmptyString "./backups" = ["."].
Proof. repeat split. Qed.

Example backup_path_cases :
  backup_path "./backups" "orders" "20240101_120000" "d"
  = "./backups/backup_orders_20240101_120000"
  ∧ backup_path "./backups" "orders" "20240101_120000" "p"
    = "./backups/backup_orders_20240101_120000.sql".
Proof. repeat split. Qed.

(** ** Facts about the platform operations *)







(** ** Each command, run from any world *)

(** Two worlds written with the setters are compared field by field. *)
Ltac py_world :=
  cbn;
  unfold ran, click_echo, logging_error, logging_info, logging_debug, emit,
    set_trace, set_heap, set_fs, child_env, environ, deref;
  cbn; rewrite <- ?app_assoc; reflexivity.

Lemma backup_run host port username dbname backup_dir dump_format password w :
  let path := backup_path backup_dir dbname (clock w) dump_format in
  let cmd := backup_cmd host port username dbname dump_format path in
  let pre := [Log INFO (Str ("Backup directory ensured: " +:+ backup_dir));
              Log DEBUG (Str ("Running command: " +:+ join " " cmd))] in
  let done := Str ("Backup completed successfully. Backup file/directory: " +:+ path) in
  backup host port username dbname backup_dir dump_format password w =
  match makedirs (fs w) (mkdir_denied w) backup_dir true with
  | inr msg =>
      (set_trace
         (trace w ++ [Log ERROR (StrExn "Failed to create backup directory: " (OSError msg))]) w,
       Ok tt)
  | inl m =>
      match child w cmd (child_env w password) with
      | LaunchFailed msg => (ran w m password pre cmd [], Raised (OSError msg))
      | Exited rc =>
          if (rc =? 0)%Z
          then (ran w m password pre cmd [Log INFO done; Echo done], Ok tt)
          else let e := CalledProcessError rc cmd in
               (ran w m password pre cmd
                  [Log ERROR (StrExn "Backup failed: " e); Echo (StrExn "Backup failed: " e)],
                Ok tt)
      end
  end.
Proof.
  intros path cmd pre done.
  unfold backup, mbind, Py_bind, try_except, datetime_now_strftime, os_makedirs.
  fold path. fold cmd.
  destruct (makedirs (fs w) (mkdir_denied w) backup_dir true) as [m|msg] eqn:E;
    [|reflexivity].
  cbn. unfold subprocess_run, deref, child_env, environ, deref. cbn.
  rewrite !lookup_insert_eq, insert_insert_eq. cbn.
  fold cmd.
  destruct (child w cmd _) as [rc|msg] eqn:C; cbn.
  - destruct (rc =? 0)%Z; py_world.
  - py_world.
Qed.

Lemma restore_run host port username dbname backup_file password w :
  let cmd := restore_cmd (bool_decide (fs w !! backup_file = Some IsDir))
               host port username dbname backup_file in
  let pre := [Log DEBUG (Str ("Running command: " +:+ join " " cmd))] in
  let done := Str "Restore completed successfully." in
  restore host port username dbname backup_file password w =
  match child w cmd (child_env w password) with
  | LaunchFailed msg => (ran w (fs w) password pre cmd [], Raised (OSError msg))
  | Exited rc =>
      if (rc =? 0)%Z
      then (ran w (fs w) password pre cmd [Log INFO done; Echo done], Ok tt)
      else let e := CalledProcessError rc cmd in
           (ran w (fs w) password pre cmd
              [Log ERROR (StrExn "Restore failed: " e); Echo (StrExn "Restore failed: " e)],
            Ok tt)
  end.
Proof.
  intros cmd pre done.
  unfold restore, mbind, Py_bind, try_except, os_path_isdir.
  cbn. fold cmd. unfold subprocess_run, deref, child_env, environ, deref. cbn.
  rewrite !lookup_insert_eq, insert_insert_eq. cbn.
  destruct (child w cmd _) as [rc|msg] eqn:C; cbn.
  - destruct (rc =? 0)%Z; py_world.
  - py_world.
Qed.

(** What is left of a run in the world it ends in. *)

Lemma events_since_ran w m password pre cmd post :
  events_since w (ran w m password pre cmd post)
  = (pre ++ [Run cmd (child_env w password)] ++ post)%list.
Proof. unfold events_since, ran. cbn. apply drop_app_length. Qed.

Lemma events_since_set_trace w evs :
  events_since w (set_trace (trace w ++ evs) w) = evs.
Proof. unfold events_since. cbn. apply drop_app_length. Qed.


(** The commands [restore] hands to [subprocess.run]: always exactly one. *)
Lemma restore_runs host port username dbname backup_file password w :
  runs (events_since w (restore host port username dbname backup_file password w).1)
  = [(restore_cmd (bool_decide (fs w !! backup_file = Some IsDir))
        host port username dbname backup_file,
      child_env w password)].
Proof.
  rewrite restore_run.
  destruct (child w _ _) as [rc|msg]; [destruct (rc =? 0)%Z|];
    cbn [fst]; rewrite events_since_ran; reflexivity.
Qed.

(** The commands [backup] hands to [subprocess.run]: one if the backup
    directory could be ensured, none otherwise. *)
Lemma backup_runs host port username dbname backup_dir dump_format password w :
  runs (events_since w (backup host port username dbname backup_dir dump_format password w).1)
  = match makedirs (fs w) (mkdir_denied w) backup_dir true with
    | inl _ =>
        [(backup_cmd host port username dbname dump_format
            (backup_path backup_dir dbname (clock w) dump_format),
          child_env w password)]
    | inr _ => []
    end.
Proof.
  rewrite backup_run.
  destruct (makedirs _ _ _ _) as [m|msg].
  - destruct (child w _ _) as [rc|msg]; [destruct (rc =? 0)%Z|];
      cbn [fst]; rewrite events_since_ran; reflexivity.
  - cbn [fst]. rewrite events_since_set_trace. reflexivity.
Qed.

(** Every element of one explicit list is an element of another. *)
Ltac among :=
  let a := fresh "a" in
  let Ha := fresh "Ha" in
  intros a Ha;
  repeat (apply elem_of_cons in Ha as [->|Ha]);
  [ repeat first [ apply list_elem_of_here | apply list_elem_of_further ] ..
  | inversion Ha ].

(** ** The claims *)

(** C1. Restore tool selection follows the ordered decision table.
    Whatever the world, [restore] hands exactly one command to
    [subprocess.run]: for a directory, [pg_restore] with the host, port,
    user, target-database and verbose flags and the directory as the only
    positional argument; otherwise, for a path ending in [.sql], [psql]
    with the host, port, user and target-database flags and the file after
    [-f], without [-v]; otherwise [pg_restore] with the same flags as for a
    directory and the file as the last argument. *)
Theorem restore_tool_selection host port username dbname backup_file password w :
  (runs (events_since w
     (restore host port username dbname backup_file password w).1)).*1
  = [ match fs w !! backup_file with
      | Some IsDir =>
          ["pg_restore"; "-h"; host; "-p"; str port; "-U"; username;
           "-d"; dbname; "-v"; backup_file]
      | _ =>
          if endswith backup_file ".sql"
          then ["psql"; "-h"; host; "-p"; str port; "-U"; username;
                "-d"; dbname; "-f"; backup_file]
          else ["pg_restore"; "-h"; host; "-p"; str port; "-U"; username;
                "-d"; dbname; "-v"; backup_file]
      end ].
Proof.
  rewrite restore_runs. cbn [fmap list_fmap fst]. f_equal.
  unfold restore_cmd.
  destruct (fs w !! backup_file) as [[|]|]; reflexivity.
Qed.

(** C2. Scenario A: for host [localhost], port 5432, user [alice],
    database [orders] and the custom format, the command is [pg_dump -h
    localhost -p 5432 -U alice -F c -b -v -f <artifact path> orders], in
    this order, for every artifact path; and a run of [backup] into
    [./backups] at 2024-01-01 12:00:00 hands exactly this command to
    [subprocess.run], with the path of the scenario. *)
Theorem backup_scenario_A :
  (∀ path,
     backup_cmd "localhost" 5432 "alice" "orders" (format_choice Custom) path
     = ["pg_dump"; "-h"; "localhost"; "-p"; "5432"; "-U"; "alice";
        "-F"; "c"; "-b"; "-v"; "-f"; path; "orders"])
  ∧ (∀ password out,
       (runs (events_since (fresh_world out)
          (backup "localhost" 5432 "alice" "orders" "./backups"
             (format_choice Custom) password (fresh_world out)).1)).*1
       = [["pg_dump"; "-h"; "localhost"; "-p"; "5432"; "-U"; "alice";
           "-F"; "c"; "-b"; "-v";
           "-f"; "./backups/backup_orders_20240101_120000.dump"; "orders"]]).
Proof.
  split; [reflexivity|].
  intros password out. rewrite backup_runs. reflexivity.
Qed.

(** C3. The password is kept out of the argument vector.  For [backup]
    and for [restore], from any world and with any password: the command
    handed to [subprocess.run] is [backup_cmd] resp. [restore_cmd] of the
    host, port, user, database, format and path, each of its arguments is
    one of the fixed program names and flags or one of those values, and
    it is the same command whatever the password is, so a password that
    is none of these strings occurs nowhere in it; the password is handed
    over as the value of [PGPASSWORD] in the environment of the child. *)
Theorem password_only_in_environment
    host port username dbname backup_dir dump_format backup_file password w :
  let path := backup_path backup_dir dbname (clock w) dump_format in
  let bcmd := backup_cmd host port username dbname dump_format path in
  let rcmd := restore_cmd (bool_decide (fs w !! backup_file = Some IsDir))
                host port username dbname backup_file in
  let env := <["PGPASSWORD" := password]> (environ w) in
  let bruns password :=
    runs (events_since w
      (backup host port username dbname backup_dir dump_format password w).1) in
  let rruns password :=
    runs (events_since w
      (restore host port username dbname backup_file password w).1) in
  let bparts := ["pg_dump"; "-h"; "-p"; "-U"; "-F"; "-b"; "-v"; "-f";
                 host; str port; username; dump_format; path; dbname] in
  let rparts := ["pg_restore"; "psql"; "-h"; "-p"; "-U"; "-d"; "-v"; "-f";
                 host; str port; username; dbname; backup_file] in
  (bruns password = [(bcmd, env)] ∨ bruns password = [])
  ∧ rruns password = [(rcmd, env)]
  ∧ (∀ password', (bruns password').*1 = (bruns password).*1)
  ∧ (∀ password', (rruns password').*1 = (rruns password).*1)
  ∧ bcmd ⊆ bparts
  ∧ rcmd ⊆ rparts
  ∧ (password ∉ bparts → password ∉ bcmd)
  ∧ (password ∉ rparts → password ∉ rcmd)
  ∧ env !! "PGPASSWORD" = Some password.
Proof.
  intros path bcmd rcmd env bruns rruns bparts rparts.
  assert (Hb : bcmd ⊆ bparts).
  { subst bcmd. unfold backup_cmd. destruct (dump_format =? "d"); among. }
  assert (Hr : rcmd ⊆ rparts).
  { subst rcmd. unfold restore_cmd.
    destruct (bool_decide _); [|destruct (endswith _ _)]; among. }
  subst bruns rruns. cbv beta.
  split; [|split; [|split; [|split]]].
  - rewrite backup_runs. destruct (makedirs _ _ _ _); [left|right]; reflexivity.
  - apply restore_runs.
  - intros password'. rewrite !backup_runs.
    destruct (makedirs _ _ _ _); reflexivity.
  - intros password'. rewrite !restore_runs. reflexivity.
  - split; [exact Hb|]. split; [exact Hr|].
    split; [intros Hn Hin; apply Hn, Hb, Hin|].
    split; [intros Hn Hin; apply Hn, Hr, Hin|].
    apply lookup_insert_eq.
Qed.

(** C3 at the inputs of scenario A: the password [s3cret] is none of the
    arguments of the [pg_dump] command, and it is the value of
    [PGPASSWORD] in the environment of the child. *)
Lemma password_only_in_environment_witness :
  ("s3cret" ∉ ["pg_dump"; "-h"; "-p"; "-U"; "-F"; "-b"; "-v"; "-f";
               "localhost"; "5432"; "alice"; "c";
               "./backups/backup_orders_20240101_120000.dump"; "orders"])
  ∧ ("s3cret" ∉ backup_cmd "localhost" 5432 "alice" "orders" "c"
                  (backup_path "./backups" "orders" "20240101_120000" "c"))
  ∧ (runs (events_since (fresh_world (Exited 0))
       (restore "localhost" 5432 "alice" "orders" "./dump.sql" "s3cret"
          (fresh_world (Exited 0))).1)).*2
    = [<["PGPASSWORD" := "s3cret"]> shell_environ].
Proof.
  assert (H0 : "s3cret" ∉ ["pg_dump"; "-h"; "-p"; "-U"; "-F"; "-b"; "-v"; "-f";
               "localhost"; "5432"; "alice"; "c";
               "./backups/backup_orders_20240101_120000.dump"; "orders"]).
  { intros H.
    repeat (apply elem_of_cons in H as [H|H]; [discriminate H|]).
    inversion H. }
  destruct (password_only_in_environment
              "localhost" 5432%Z "alice" "orders" "./backups" "c" "./dump.sql"
              "s3cret" (fresh_world (Exited 0)))
    as (_ & Hruns & _ & _ & _ & _ & Hnot & _).
  split; [exact H0|]. split.
  - exact (Hnot H0).
  - rewrite Hruns. vm_compute. reflexivity.
Defined.

(** C4. The large-object flag [-b] is in the [pg_dump] command exactly
    when the format is not the directory format: for every format the
    command is the same prefix (program, host, port, user, format) and the
    same suffix (verbose flag, output path, database name), with [-b]
    between them for the custom, tar and plain formats and nothing between
    them for the directory format. *)
Theorem large_object_flag_iff_not_directory
    host port username dbname path (f : DumpFormat) :
  let flags := match f with Directory => [] | _ => ["-b"] end in
  backup_cmd host port username dbname (format_choice f) path
  = (["pg_dump"; "-h"; host; "-p"; str port; "-U"; username;
      "-F"; format_choice f]
     ++ flags ++ ["-v"; "-f"; path; dbname])%list
  ∧ ("-b" ∈ flags ↔ f ≠ Directory)
  ∧ (flags = [] ↔ f = Directory).
Proof.
  destruct f; cbn; (split; [reflexivity|]); split; split; intros H;
    try discriminate; try reflexivity; try (exfalso; now apply H);
    try (now apply list_elem_of_singleton); now inversion H.
Qed.



(** C6, counterexample.  On an empty file system, restoring from
    [./missing.dump] hands a [pg_restore] command to [subprocess.run]; the
    child exits with status 1 and [restore] returns normally after
    reporting the failed restore.  No error precedes the run. *)
Lemma restore_missing_artifact_is_run :
  fs (fresh_world (Exited 1)) !! "./missing.dump" = None
  ∧ (runs (events_since (fresh_world (Exited 1))
       (restore "localhost" 5432 "alice" "orders" "./missing.dump" "s3cret"
          (fresh_world (Exited 1))).1)).*1
    = [["pg_restore"; "-h"; "localhost"; "-p"; "5432"; "-U"; "alice";
        "-d"; "orders"; "-v"; "./missing.dump"]]
  ∧ (restore "localhost" 5432 "alice" "orders" "./missing.dump" "s3cret"
       (fresh_world (Exited 1))).2 = Ok tt
  ∧ ¬ restore_stops_on_missing_artifact.
Proof.
  assert (Hruns : (runs (events_since (fresh_world (Exited 1))
       (restore "localhost" 5432 "alice" "orders" "./missing.dump" "s3cret"
          (fresh_world (Exited 1))).1)).*1
    = [["pg_restore"; "-h"; "localhost"; "-p"; "5432"; "-U"; "alice";
        "-d"; "orders"; "-v"; "./missing.dump"]]).
  { rewrite restore_runs. reflexivity. }
  split; [reflexivity|]. split; [exact Hruns|]. split.
  - rewrite restore_run. reflexivity.
  - intros Hclaim.
    destruct (Hclaim "localhost" 5432%Z "alice" "orders" "./missing.dump" "s3cret"
                (fresh_world (Exited 1)) eq_refl) as [Hnone _].
    rewrite Hnone in Hruns. discriminate Hruns.
Qed.

(** C6, amended.  [restore] makes no check that the artifact exists.  When
    the path does not exist it is taken for a file: exactly one command is
    handed to [subprocess.run], [psql] if the path ends in [.sql] and
    [pg_restore] otherwise, and what [restore] ends with is decided by the
    child alone: it returns normally after a zero or a non-zero exit
    status, and the only exception is the one of a child that could not be
    started. *)
Theorem restore_missing_artifact_still_run
    host port username dbname backup_file password w :
  fs w !! backup_file = None →
  let cmd :=
    if endswith backup_file ".sql"
    then ["psql"; "-h"; host; "-p"; str port; "-U"; username;
          "-d"; dbname; "-f"; backup_file]
    else ["pg_restore"; "-h"; host; "-p"; str port; "-U"; username;
          "-d"; dbname; "-v"; backup_file] in
  let r := restore host port username dbname backup_file password w in
  runs (events_since w r.1) = [(cmd, child_env w password)]
  ∧ r.2 = match child w cmd (child_env w password) with
          | Exited _ => Ok tt
          | LaunchFailed msg => Raised (OSError msg)
          end.
Proof.
  intros Hmissing cmd r.
  assert (Hcmd : restore_cmd (bool_decide (fs w !! backup_file = Some IsDir))
                   host port username dbname backup_file = cmd).
  { rewrite Hmissing. reflexivity. }
  subst r. split.
  - rewrite restore_runs, Hcmd. reflexivity.
  - rewrite restore_run, Hcmd.
    destruct (child w cmd _) as [rc|msg]; [destruct (rc =? 0)%Z|]; reflexivity.
Qed.

(** C6, amended, on an empty file system: [./missing.sql] goes to [psql]. *)
Lemma restore_missing_artifact_still_run_witness :
  fs (fresh_world (Exited 0)) !! "./missing.sql" = None
  ∧ (runs (events_since (fresh_world (Exited 0))
       (restore "db.example" 5433 "bob" "shop" "./missing.sql" "pw"
          (fresh_world (Exited 0))).1)).*1
    = [["psql"; "-h"; "db.example"; "-p"; "5433"; "-U"; "bob";
        "-d"; "shop"; "-f"; "./missing.sql"]]
  ∧ (restore "db.example" 5433 "bob" "shop" "./missing.sql" "pw"
       (fresh_world (Exited 0))).2 = Ok tt.
Proof.
  assert (H0 : fs (fresh_world (Exited 0)) !! "./missing.sql" = None)
    by reflexivity.
  destruct (restore_missing_artifact_still_run
              "db.example" 5433%Z "bob" "shop" "./missing.sql" "pw"
              (fresh_world (Exited 0)) H0) as [Hruns Hres].
  split; [exact H0|]. split.
  - rewrite Hruns. reflexivity.
  - exact Hres.
Defined.

(** C7, counterexample.  When [pg_restore] cannot be started,
    [subprocess.run] raises an [OSError]; [except
    subprocess.CalledProcessError] does not catch it, so [restore] ends
    with that exception and the last event is the attempted run: no
    failure is logged or echoed.  [backup] behaves alike. *)
Lemma launch_failure_escapes :
  (restore "localhost" 5432 "alice" "orders" "./orders.dump" "s3cret"
     (fresh_world (LaunchFailed "[Errno 2] No such file or directory: 'pg_restore'"))).2
  = Raised (OSError "[Errno 2] No such file or directory: 'pg_restore'")
  ∧ events_since
      (fresh_world (LaunchFailed "[Errno 2] No such file or directory: 'pg_restore'"))
      (restore "localhost" 5432 "alice" "orders" "./orders.dump" "s3cret"
         (fresh_world (LaunchFailed "[Errno 2] No such file or directory: 'pg_restore'"))).1
    = [Log DEBUG (Str "Running command: pg_restore -h localhost -p 5432 -U alice -d orders -v ./orders.dump");
       Run ["pg_restore"; "-h"; "localhost"; "-p"; "5432"; "-U"; "alice";
            "-d"; "orders"; "-v"; "./orders.dump"]
         (<["PGPASSWORD" := "s3cret"]> shell_environ)]
  ∧ (backup "localhost" 5432 "alice" "orders" "./backups" "c" "s3cret"
       (fresh_world (LaunchFailed "[Errno 2] No such file or directory: 'pg_dump'"))).2
    = Raised (OSError "[Errno 2] No such file or directory: 'pg_dump'")
  ∧ ¬ launch_failure_is_reported.
Proof.
  assert (Hres : (restore "localhost" 5432 "alice" "orders" "./orders.dump" "s3cret"
     (fresh_world (LaunchFailed "[Errno 2] No such file or directory: 'pg_restore'"))).2
  = Raised (OSError "[Errno 2] No such file or directory: 'pg_restore'")).
  { rewrite restore_run. reflexivity. }
  split; [exact Hres|]. split; [|split].
  - rewrite restore_run. cbn [fst child fresh_world world_of].
    rewrite events_since_ran. vm_compute. reflexivity.
  - rewrite backup_run. reflexivity.
  - intros Hclaim.
    destruct (Hclaim "localhost" 5432%Z "alice" "orders" "./orders.dump" "s3cret"
                (fresh_world (LaunchFailed "[Errno 2] No such file or directory: 'pg_restore'"))
                _ eq_refl) as [Hok _].
    rewrite Hok in Hres. discriminate Hres.
Qed.

(** C7, amended.  The exit status decides the outcome.  Once the backup
    directory is ensured, [backup] hands its command to [subprocess.run]
    and: after exit status 0 it logs and echoes the success message and
    returns; after any other exit status it logs and echoes [Backup
    failed:] with the [CalledProcessError] that carries this status and the
    command, and returns; when the program cannot be started, nothing is
    reported: [backup] ends with the [OSError] that carries the text of
    the launch error.  [restore] does the same with its own messages. *)
Theorem exit_status_outcome
    host port username dbname backup_dir dump_format backup_file password w m :
  makedirs (fs w) (mkdir_denied w) backup_dir true = inl m →
  let path := backup_path backup_dir dbname (clock w) dump_format in
  let bcmd := backup_cmd host port username dbname dump_format path in
  let rcmd := restore_cmd (bool_decide (fs w !! backup_file = Some IsDir))
                host port username dbname backup_file in
  let env := child_env w password in
  let b := backup host port username dbname backup_dir dump_format password w in
  let r := restore host port username dbname backup_file password w in
  let bpre := [Log INFO (Str ("Backup directory ensured: " +:+ backup_dir));
               Log DEBUG (Str ("Running command: " +:+ join " " bcmd));
               Run bcmd env] in
  let rpre := [Log DEBUG (Str ("Running command: " +:+ join " " rcmd));
               Run rcmd env] in
  let bdone := Str ("Backup completed successfully. Backup file/directory: " +:+ path) in
  let rdone := Str "Restore completed successfully." in
  match child w bcmd env with
  | Exited rc =>
      b.2 = Ok tt
      ∧ events_since w b.1
        = (bpre ++
           if (rc =? 0)%Z then [Log INFO bdone; Echo bdone]
           else [Log ERROR (StrExn "Backup failed: " (CalledProcessError rc bcmd));
                 Echo (StrExn "Backup failed: " (CalledProcessError rc bcmd))])%list
  | LaunchFailed msg =>
      b.2 = Raised (OSError msg) ∧ events_since w b.1 = bpre
  end
  ∧
  match child w rcmd env with
  | Exited rc =>
      r.2 = Ok tt
      ∧ events_since w r.1
        = (rpre ++
           if (rc =? 0)%Z then [Log INFO rdone; Echo rdone]
           else [Log ERROR (StrExn "Restore failed: " (CalledProcessError rc rcmd));
                 Echo (StrExn "Restore failed: " (CalledProcessError rc rcmd))])%list
  | LaunchFailed msg =>
      r.2 = Raised (OSError msg) ∧ events_since w r.1 = rpre
  end.
Proof.
  intros Hmk path bcmd rcmd env b r bpre rpre bdone rdone. split.
  - subst b. rewrite backup_run, Hmk. fold path bcmd env.
    destruct (child w bcmd env) as [rc|msg]; [destruct (rc =? 0)%Z|];
      cbn [fst snd]; rewrite events_since_ran; split; reflexivity.
  - subst r. rewrite restore_run. fold rcmd env.
    destruct (child w rcmd env) as [rc|msg]; [destruct (rc =? 0)%Z|];
      cbn [fst snd]; rewrite events_since_ran; split; reflexivity.
Qed.

(** C7, amended, for a child that exits with status 3. *)
Lemma exit_status_outcome_witness :
  makedirs (fs (fresh_world (Exited 3))) (mkdir_denied (fresh_world (Exited 3)))
    "./backups" true
  = inl (<["./backups" := IsDir]> {["." := IsDir]})
  ∧ (backup "localhost" 5432 "alice" "orders" "./backups" "t" "s3cret"
       (fresh_world (Exited 3))).2 = Ok tt
  ∧ last (events_since (fresh_world (Exited 3))
            (backup "localhost" 5432 "alice" "orders" "./backups" "t" "s3cret"
               (fresh_world (Exited 3))).1)
    = Some (Echo (StrExn "Backup failed: "
              (CalledProcessError 3
                 ["pg_dump"; "-h"; "localhost"; "-p"; "5432"; "-U"; "alice";
                  "-F"; "t"; "-b"; "-v";
                  "-f"; "./backups/backup_orders_20240101_120000.tar"; "orders"])))
  ∧ (restore "localhost" 5432 "alice" "orders" "./dump.sql" "s3cret"
       (fresh_world (Exited 3))).2 = Ok tt.
Proof.
  assert (H0 : makedirs (fs (fresh_world (Exited 3)))
                 (mkdir_denied (fresh_world (Exited 3))) "./backups" true
               = inl (<["./backups" := IsDir]> {["." := IsDir]}))
    by (vm_compute; reflexivity).
  destruct (exit_status_outcome
              "localhost" 5432%Z "alice" "orders" "./backups" "t" "./dump.sql"
              "s3cret" (fresh_world (Exited 3)) _ H0)
    as [[Hb Hbev] [Hr _]].
  split; [exact H0|]. split; [exact Hb|]. split; [|exact Hr].
  rewrite Hbev. reflexivity.
Defined.

(** The file system [backup] leaves behind is the one [os.makedirs] made. *)
Lemma backup_fs host port username dbname backup_dir dump_format password w :
  fs (backup host port username dbname backup_dir dump_format password w).1
  = match makedirs (fs w) (mkdir_denied w) backup_dir true with
    | inl m => m
    | inr _ => fs w
    end.
Proof.
  rewrite backup_run.
  destruct (makedirs _ _ _ _) as [m|msg]; [|reflexivity].
  destruct (child w _ _) as [rc|msg]; [destruct (rc =? 0)%Z|]; reflexivity.
Qed.




(** C10. For a path that is not a directory, the restore tool is chosen by
    the spelling of the path alone.  In any two worlds in which the path
    is not a directory (it may be a file in one and missing in the
    other) [restore] hands the same single command to [subprocess.run]:
    [psql ... -f path] if the path ends with [.sql], that is, is some
    string followed by [.sql], and [pg_restore ... -v path] otherwise. *)
Theorem restore_tool_by_suffix_only
    host port username dbname backup_file password w w' :
  fs w !! backup_file ≠ Some IsDir →
  fs w' !! backup_file ≠ Some IsDir →
  let cmd :=
    if endswith backup_file ".sql"
    then ["psql"; "-h"; host; "-p"; str port; "-U"; username;
          "-d"; dbname; "-f"; backup_file]
    else ["pg_restore"; "-h"; host; "-p"; str port; "-U"; username;
          "-d"; dbname; "-v"; backup_file] in
  (runs (events_since w
     (restore host port username dbname backup_file password w).1)).*1 = [cmd]
  ∧ (runs (events_since w'
       (restore host port username dbname backup_file password w').1)).*1 = [cmd]
  ∧ (endswith backup_file ".sql" = true ↔ ∃ stem, backup_file = stem +:+ ".sql").
Proof.
  intros Hw Hw' cmd. rewrite !restore_runs.
  rewrite !bool_decide_eq_false_2 by assumption.
  split; [reflexivity|]. split; [reflexivity|]. apply endswith_spec.
Qed.

(** C10 for [./dump.sql], missing in one world and a file in the other. *)
Lemma restore_tool_by_suffix_only_witness :
  (fs (fresh_world (Exited 0)) !! "./dump.sql" ≠ Some IsDir
   ∧ fs (world_of {["./dump.sql" := IsFile]} "20240101_120000" (λ _, None) (Exited 0))
       !! "./dump.sql" ≠ Some IsDir)
  ∧ (runs (events_since (fresh_world (Exited 0))
       (restore "localhost" 5432 "alice" "orders" "./dump.sql" "s3cret"
          (fresh_world (Exited 0))).1)).*1
    = [["psql"; "-h"; "localhost"; "-p"; "5432"; "-U"; "alice";
        "-d"; "orders"; "-f"; "./dump.sql"]].
Proof.
  assert (H0 : fs (fresh_world (Exited 0)) !! "./dump.sql" ≠ Some IsDir)
    by (vm_compute; discriminate).
  assert (H1 : fs (world_of {["./dump.sql" := IsFile]} "20240101_120000"
                     (λ _, None) (Exited 0)) !! "./dump.sql" ≠ Some IsDir)
    by (vm_compute; discriminate).
  split; [split; assumption|].
  exact (proj1 (restore_tool_by_suffix_only
                  "localhost" 5432%Z "alice" "orders" "./dump.sql" "s3cret"
                  _ _ H0 H1)).
Defined.


(** ** Beyond the claims *)

(** *** More facts about strings *)

Lemma append_nil_r s : s +:+ EmptyString = s.
Proof.
  induction s as [|c s IH]; [reflexivity|]. rewrite append_cons. now rewrite IH.
Qed.

Lemma append_inj_len s s' t t' :
  String.length s = String.length s' → s +:+ t = s' +:+ t' → s = s' ∧ t = t'.
Proof.
  revert s'. induction s as [|c s IH]; intros [|c' s'] Hlen H; try discriminate.
  - now split.
  - rewrite !append_cons in H. inversion H; subst.
    destruct (IH s') as [-> ->]; auto.
Qed.

Lemma append_inj_len_r s s' t t' :
  String.length t = String.length t' → s +:+ t = s' +:+ t' → s = s' ∧ t = t'.
Proof.
  intros Hlen H. apply append_inj_len; [|exact H].
  apply (f_equal String.length) in H. rewrite !length_append in H. lia.
Qed.

Lemma to_int_nonnil z :
  Z.to_int z ≠ Decimal.Pos Decimal.Nil ∧ Z.to_int z ≠ Decimal.Neg Decimal.Nil.
Proof.
  destruct z as [|p|p]; cbn; split; try discriminate;
    intros E; inversion E as [E']; now apply Unsigned.to_uint_nonnil in E'.
Qed.

(** [str] can be read back: different numbers have different numerals. *)
Lemma str_inj n m : str n = str m → n = m.
Proof.
  unfold str. intros H.
  apply (f_equal NilZero.int_of_string) in H.
  rewrite !NilZero.isi in H by apply to_int_nonnil.
  inversion H as [E].
  rewrite <- (DecimalZ.of_to n), <- (DecimalZ.of_to m). now rewrite E.
Qed.

(** The artifact path: what precedes the time stamp, the time stamp, the
    extension. *)
Lemma backup_path_split backup_dir dbname timestamp f :
  backup_path backup_dir dbname timestamp (format_choice f)
  = path_prefix backup_dir dbname +:+ timestamp +:+ artifact_ext f.
Proof.
  unfold path_prefix.
  destruct f; unfold backup_path, file_ext; cbn [format_choice artifact_ext];
    cbn; rewrite os_path_join_backup, ?append_nil_r, ?append_assoc; reflexivity.
Qed.

Lemma endswith_own_suffix x suf : endswith (x +:+ suf) suf = true.
Proof. apply endswith_spec. now exists x. Qed.

Lemma not_endswith_sql_tar x : endswith (x +:+ ".tar") ".sql" = false.
Proof.
  apply not_true_iff_false. rewrite endswith_spec. intros [stem H].
  apply append_inj_len_r in H as [_ H]; [discriminate H|reflexivity].
Qed.

Lemma not_endswith_sql_dump x : endswith (x +:+ ".dump") ".sql" = false.
Proof.
  apply not_true_iff_false. rewrite endswith_spec. intros [stem H].
  change (x +:+ ".dump") with (x +:+ "." +:+ "dump") in H.
  rewrite <- append_assoc in H.
  apply append_inj_len_r in H as [_ H]; [discriminate H|reflexivity].
Qed.

(** *** The time stamp *)

Lemma all_from_spec n z p :
  all_from n z p = true → ∀ k, (z ≤ k < z + Z.of_nat n)%Z → p k = true.
Proof.
  revert z. induction n as [|n IH]; intros z H k Hk; [lia|].
  cbn [all_from] in H. apply andb_true_iff in H as [Hz Hrest].
  destruct (decide (k = z)) as [->|Hne]; [exact Hz|].
  apply (IH (z + 1)%Z Hrest). lia.
Qed.

Lemma str_year_length y :
  (1000 ≤ y ≤ 9999)%Z → String.length (str y) = 4%nat.
Proof.
  intros Hy.
  assert (H : all_from (Z.to_nat 9000) 1000 (λ y, Nat.eqb (String.length (str y)) 4) = true)
    by (vm_compute; reflexivity).
  apply Nat.eqb_eq. apply (all_from_spec _ _ _ H). lia.
Qed.

Lemma pad2_length n : (0 ≤ n ≤ 99)%Z → String.length (pad2 n) = 2%nat.
Proof.
  intros Hn.
  assert (H : all_from (Z.to_nat 100) 0 (λ n, Nat.eqb (String.length (pad2 n)) 2) = true)
    by (vm_compute; reflexivity).
  apply Nat.eqb_eq. apply (all_from_spec _ _ _ H). lia.
Qed.

Lemma pad2_inj n m :
  (0 ≤ n ≤ 99)%Z → (0 ≤ m ≤ 99)%Z → pad2 n = pad2 m → n = m.
Proof.
  intros Hn Hm.
  assert (H : all_from (Z.to_nat 100) 0 (λ n, all_from (Z.to_nat 100) 0 (λ m,
                implb (pad2 n =? pad2 m) (n =? m)%Z)) = true)
    by (vm_compute; reflexivity).
  pose proof (all_from_spec _ _ _ H n ltac:(lia)) as H1. cbv beta in H1.
  pose proof (all_from_spec _ _ _ H1 m ltac:(lia)) as H2. cbv beta in H2.
  intros E. apply String.eqb_eq in E. rewrite E in H2. now apply Z.eqb_eq.
Qed.

Lemma datetime_ok_bounds dt :
  datetime_ok dt = true →
  (1000 ≤ year dt ≤ 9999 ∧ 1 ≤ month dt ≤ 12 ∧ 1 ≤ day dt ≤ 31
   ∧ 0 ≤ hour dt ≤ 23 ∧ 0 ≤ minute dt ≤ 59 ∧ 0 ≤ second dt ≤ 59)%Z.
Proof.
  unfold datetime_ok. rewrite !andb_true_iff, !Z.leb_le. lia.
Qed.

Lemma strftime_length dt :
  datetime_ok dt = true → String.length (strftime_Ymd_HMS dt) = 15%nat.
Proof.
  intros Hok.
  apply datetime_ok_bounds in Hok as (Hy & Hmo & Hd & Hh & Hmi & Hs).
  unfold strftime_Ymd_HMS.
  rewrite !length_append, str_year_length, !pad2_length by lia. reflexivity.
Qed.

Lemma strftime_inj dt dt' :
  datetime_ok dt = true → datetime_ok dt' = true →
  strftime_Ymd_HMS dt = strftime_Ymd_HMS dt' → dt = dt'.
Proof.
  intros Hok Hok'.
  apply datetime_ok_bounds in Hok as (Hy & Hmo & Hd & Hh & Hmi & Hs).
  apply datetime_ok_bounds in Hok' as (Hy' & Hmo' & Hd' & Hh' & Hmi' & Hs').
  unfold strftime_Ymd_HMS. intros E.
  apply append_inj_len in E as [Ey E];
    [|now rewrite !str_year_length by lia].
  apply append_inj_len in E as [Emo E]; [|now rewrite !pad2_length by lia].
  apply append_inj_len in E as [Ed E]; [|now rewrite !pad2_length by lia].
  apply append_inj_len in E as [_ E]; [|reflexivity].
  apply append_inj_len in E as [Eh E]; [|now rewrite !pad2_length by lia].
  apply append_inj_len in E as [Emi Es]; [|now rewrite !pad2_length by lia].
  apply str_inj in Ey. apply pad2_inj in Emo, Ed, Eh, Emi, Es; try lia.
  destruct dt, dt'; cbn in *; congruence.
Qed.

(** X1. Line 64.  The time stamp of a date with a four-digit year has
    exactly 15 characters, whatever the month, day and time, and two such
    dates with the same time stamp are the same date and time to the
    second. *)
Theorem strftime_fixed_width_injective dt dt' :
  datetime_ok dt = true →
  datetime_ok dt' = true →
  String.length (strftime_Ymd_HMS dt) = 15%nat
  ∧ (strftime_Ymd_HMS dt = strftime_Ymd_HMS dt' → dt = dt').
Proof.
  intros Hok Hok'. split.
  - now apply strftime_length.
  - now apply strftime_inj.
Qed.

Lemma strftime_fixed_width_injective_witness :
  datetime_ok (mkDatetime 2024 1 1 12 0 0) = true
  ∧ datetime_ok (mkDatetime 2024 12 31 23 59 59) = true
  ∧ strftime_Ymd_HMS (mkDatetime 2024 1 1 12 0 0) = "20240101_120000"
  ∧ String.length (strftime_Ymd_HMS (mkDatetime 2024 1 1 12 0 0)) = 15%nat.
Proof.
  split; [reflexivity|]. split; [reflexivity|]. split; [reflexivity|].
  exact (proj1 (strftime_fixed_width_injective
                  (mkDatetime 2024 1 1 12 0 0) (mkDatetime 2024 12 31 23 59 59)
                  eq_refl eq_refl)).
Defined.

(** *** The artifact path and the tool that reads it back *)

Lemma artifact_ext_inj f f' : artifact_ext f = artifact_ext f' → f = f'.
Proof. destruct f, f'; cbn; intros H; try reflexivity; discriminate H. Qed.

Lemma backup_path_inj backup_dir dbname ts ts' f f' :
  String.length ts = String.length ts' →
  backup_path backup_dir dbname ts (format_choice f)
  = backup_path backup_dir dbname ts' (format_choice f') →
  ts = ts' ∧ f = f'.
Proof.
  intros Hlen H. rewrite !backup_path_split in H.
  apply String.app_inj in H.
  apply append_inj_len in H as [Hts Hext]; [|exact Hlen].
  split; [exact Hts|]. now apply artifact_ext_inj.
Qed.

(** X2. Lines 64-70.  Two backups of one database into one backup
    directory get different artifact paths as soon as they differ in the
    second they are made at or in the format: for dates with a four-digit
    year, the path determines the date, the time and the format. *)
Theorem backup_paths_do_not_collide backup_dir dbname dt dt' f f' :
  datetime_ok dt = true →
  datetime_ok dt' = true →
  dt ≠ dt' ∨ f ≠ f' →
  backup_path backup_dir dbname (strftime_Ymd_HMS dt) (format_choice f)
  ≠ backup_path backup_dir dbname (strftime_Ymd_HMS dt') (format_choice f').
Proof.
  intros Hok Hok' Hne E.
  apply backup_path_inj in E as [Ets Ef];
    [|now rewrite !strftime_length by assumption].
  destruct Hne as [Hne|Hne]; [|apply Hne, Ef].
  apply Hne. now apply strftime_inj.
Qed.

Lemma backup_paths_do_not_collide_witness :
  datetime_ok (mkDatetime 2024 1 1 12 0 0) = true
  ∧ datetime_ok (mkDatetime 2024 1 1 12 0 1) = true
  ∧ backup_path "./backups" "orders"
      (strftime_Ymd_HMS (mkDatetime 2024 1 1 12 0 0)) (format_choice Tar)
    ≠ backup_path "./backups" "orders"
        (strftime_Ymd_HMS (mkDatetime 2024 1 1 12 0 1)) (format_choice Tar).
Proof.
  split; [reflexivity|]. split; [reflexivity|].
  apply (backup_paths_do_not_collide "./backups" "orders"
           (mkDatetime 2024 1 1 12 0 0) (mkDatetime 2024 1 1 12 0 1) Tar Tar
           eq_refl eq_refl).
  left. discriminate.
Defined.

Lemma backup_path_endswith_sql backup_dir dbname timestamp f :
  endswith (backup_path backup_dir dbname timestamp (format_choice f)) ".sql"
  = match f with Plain => true | Directory => endswith (path_prefix backup_dir dbname +:+ timestamp) ".sql" | _ => false end.
Proof.
  rewrite backup_path_split.
  destruct f; unfold artifact_ext.
  - rewrite <- append_assoc. apply not_endswith_sql_dump.
  - now rewrite append_nil_r.
  - rewrite <- append_assoc. apply not_endswith_sql_tar.
  - rewrite <- append_assoc. apply endswith_own_suffix.
Qed.

(** X3. Lines 65-70 with 139-170.  [restore] picks the tool that reads
    what [backup] wrote: when the artifact [backup] names for a format is
    there as that format makes it (a directory for the directory format, a
    file otherwise), restoring from that path runs [psql -f] for the plain
    format and [pg_restore] for the custom, tar and directory formats,
    whatever the backup directory, database name and time stamp are. *)
Theorem restore_reads_what_backup_wrote
    backup_dir dbname timestamp f host port username target password w :
  let path := backup_path backup_dir dbname timestamp (format_choice f) in
  fs w !! path = Some (artifact_shape (format_choice f)) →
  (runs (events_since w
     (restore host port username target path password w).1)).*1
  = [ match f with
      | Plain => ["psql"; "-h"; host; "-p"; str port; "-U"; username;
                  "-d"; target; "-f"; path]
      | _ => ["pg_restore"; "-h"; host; "-p"; str port; "-U"; username;
              "-d"; target; "-v"; path]
      end ].
Proof.
  intros path Hfs. rewrite restore_runs. cbn [fmap list_fmap fst].
  f_equal. rewrite Hfs. unfold restore_cmd.
  pose proof (backup_path_endswith_sql backup_dir dbname timestamp f) as Hsql.
  fold path in Hsql.
  destruct f.
  - rewrite bool_decide_eq_false_2 by discriminate. now rewrite Hsql.
  - rewrite bool_decide_eq_true_2 by reflexivity. reflexivity.
  - rewrite bool_decide_eq_false_2 by discriminate. now rewrite Hsql.
  - rewrite bool_decide_eq_false_2 by discriminate. now rewrite Hsql.
Qed.

Lemma restore_reads_what_backup_wrote_witness :
  fs (world_of {["./backups/backup_orders_20240101_120000.sql" := IsFile]}
        "20240102_090000" (λ _, None) (Exited 0))
    !! backup_path "./backups" "orders" "20240101_120000" (format_choice Plain)
  = Some (artifact_shape (format_choice Plain))
  ∧ (runs (events_since
       (world_of {["./backups/backup_orders_20240101_120000.sql" := IsFile]}
          "20240102_090000" (λ _, None) (Exited 0))
       (restore "localhost" 5432 "alice" "orders_copy"
          (backup_path "./backups" "orders" "20240101_120000" (format_choice Plain))
          "s3cret"
          (world_of {["./backups/backup_orders_20240101_120000.sql" := IsFile]}
             "20240102_090000" (λ _, None) (Exited 0))).1)).*1
    = [["psql"; "-h"; "localhost"; "-p"; "5432"; "-U"; "alice";
        "-d"; "orders_copy";
        "-f"; "./backups/backup_orders_20240101_120000.sql"]].
Proof.
  assert (H0 : fs (world_of {["./backups/backup_orders_20240101_120000.sql" := IsFile]}
        "20240102_090000" (λ _, None) (Exited 0))
    !! backup_path "./backups" "orders" "20240101_120000" (format_choice Plain)
  = Some (artifact_shape (format_choice Plain))) by (vm_compute; reflexivity).
  split; [exact H0|].
  exact (restore_reads_what_backup_wrote
           "./backups" "orders" "20240101_120000" Plain
           "localhost" 5432%Z "alice" "orders_copy" "s3cret" _ H0).
Defined.

(** *** What is reported, and to whom *)

(** X4. Lines 72-77 and 108-115, 172-179.  Nothing of the password goes
    into what is logged or echoed: with two passwords for which the child
    does the same, [backup] logs and echoes the same records in the same
    order and ends the same way, and so does [restore]. *)
Theorem reports_do_not_depend_on_password
    host port username dbname backup_dir dump_format backup_file
    password password' w :
  let bcmd := backup_cmd host port username dbname dump_format
                (backup_path backup_dir dbname (clock w) dump_format) in
  let rcmd := restore_cmd (bool_decide (fs w !! backup_file = Some IsDir))
                host port username dbname backup_file in
  let b pw := backup host port username dbname backup_dir dump_format pw w in
  let r pw := restore host port username dbname backup_file pw w in
  child w bcmd (child_env w password) = child w bcmd (child_env w password') →
  child w rcmd (child_env w password) = child w rcmd (child_env w password') →
  reports (events_since w (b password).1) = reports (events_since w (b password').1)
  ∧ (b password).2 = (b password').2
  ∧ reports (events_since w (r password).1) = reports (events_since w (r password').1)
  ∧ (r password).2 = (r password').2.
Proof.
  intros bcmd rcmd b r Hb Hr. subst b r. cbv beta.
  rewrite !backup_run, !restore_run. fold bcmd rcmd. rewrite <- Hb, <- Hr.
  split; [|split; [|split]].
  - destruct (makedirs _ _ _ _) as [m|msg]; [|reflexivity].
    destruct (child w bcmd _) as [rc|msg]; [destruct (rc =? 0)%Z|];
      cbn [fst]; rewrite !events_since_ran; reflexivity.
  - destruct (makedirs _ _ _ _) as [m|msg]; [|reflexivity].
    destruct (child w bcmd _) as [rc|msg]; [destruct (rc =? 0)%Z|]; reflexivity.
  - destruct (child w rcmd _) as [rc|msg]; [destruct (rc =? 0)%Z|];
      cbn [fst]; rewrite !events_since_ran; reflexivity.
  - destruct (child w rcmd _) as [rc|msg]; [destruct (rc =? 0)%Z|]; reflexivity.
Qed.

Lemma reports_do_not_depend_on_password_witness :
  reports (events_since (fresh_world (Exited 2))
    (restore "localhost" 5432 "alice" "orders" "./dump.sql" "s3cret"
       (fresh_world (Exited 2))).1)
  = reports (events_since (fresh_world (Exited 2))
      (restore "localhost" 5432 "alice" "orders" "./dump.sql" "hunter2"
         (fresh_world (Exited 2))).1).
Proof.
  exact (proj1 (proj2 (proj2
    (reports_do_not_depend_on_password
       "localhost" 5432%Z "alice" "orders" "./backups" "c" "./dump.sql"
       "s3cret" "hunter2" (fresh_world (Exited 2)) eq_refl eq_refl)))).
Defined.

(** X5. Lines 72-77.  When the backup directory cannot be created, the
    failure goes to the log and nowhere else: [backup] returns normally,
    echoes nothing and runs nothing, and the one record it logs has level
    ERROR, so that with the root logger above ERROR the command ends
    without any output. *)
Theorem directory_failure_is_only_logged
    host port username dbname backup_dir dump_format password w msg lvl :
  makedirs (fs w) (mkdir_denied w) backup_dir true = inr msg →
  let b := backup host port username dbname backup_dir dump_format password w in
  b.2 = Ok tt
  ∧ echoed (events_since w b.1) = []
  ∧ runs (events_since w b.1) = []
  ∧ emitted lvl (events_since w b.1)
    = if (lvl <=? 40)%Z
      then [StrExn "Failed to create backup directory: " (OSError msg)]
      else [].
Proof.
  intros Hmk b. subst b. rewrite backup_run, Hmk. cbn [fst snd].
  rewrite events_since_set_trace.
  split; [reflexivity|]. split; [reflexivity|]. split; [reflexivity|].
  cbn. destruct (lvl <=? 40)%Z; reflexivity.
Qed.

Lemma directory_failure_is_only_logged_witness :
  makedirs (fs readonly_world) (mkdir_denied readonly_world) "./backups" true
  = inr "[Errno 13] Permission denied"
  ∧ echoed (events_since readonly_world
      (backup "localhost" 5432 "alice" "orders" "./backups" "c" "s3cret"
         readonly_world).1) = []
  ∧ emitted 50 (events_since readonly_world
      (backup "localhost" 5432 "alice" "orders" "./backups" "c" "s3cret"
         readonly_world).1) = [].
Proof.
  assert (H0 : makedirs (fs readonly_world) (mkdir_denied readonly_world)
                 "./backups" true = inr "[Errno 13] Permission denied")
    by (vm_compute; reflexivity).
  destruct (directory_failure_is_only_logged
              "localhost" 5432%Z "alice" "orders" "./backups" "c" "s3cret"
              readonly_world _ 50%Z H0) as (_ & Hecho & _ & Hlog).
  split; [exact H0|]. split; [exact Hecho|exact Hlog].
Defined.

(** *** The logging set-up *)

(** Lines 26-27 on the names of line 13: each is its own upper-case form
    and names a level of [logging]. *)
Lemma level_of_choice c :
  logging_getattr_int (upper (log_level_choice c))
  = Some (match c with
          | ChDEBUG => 10 | ChINFO => 20 | ChWARNING => 30
          | ChERROR => 40 | ChCRITICAL => 50
          end)%Z.
Proof. destruct c; vm_compute; reflexivity. Qed.

(** X7. Lines 18-40.  For every level name [click.Choice] lets through,
    [cli] finds the level's number, 10 to 50, so [click.BadParameter] is
    never raised.  With an empty [--log-file] only the console handler is
    installed.  Otherwise the log file is opened first: if that fails,
    [cli] ends with the [OSError] before anything is configured or logged;
    if it succeeds, the file is there afterwards and both handlers are
    installed.  The start message is then logged at INFO, so it passes the
    root logger only for the levels DEBUG and INFO. *)
Theorem cli_resolves_log_level open_denied c log_file w :
  let numeric :=
    (match c with
     | ChDEBUG => 10 | ChINFO => 20 | ChWARNING => 30
     | ChERROR => 40 | ChCRITICAL => 50
     end)%Z in
  let start := Str "Starting PGKeeper for PostgreSQL backup and restore" in
  let started w' := set_trace (trace w' ++ [Log INFO start]) w' in
  let r := cli open_denied c log_file w in
  r = (if log_file =? EmptyString
       then (started w, Ok (inr (mkLoggingConfig numeric [StreamHandler])))
       else match open_error (fs w) open_denied log_file with
            | Some msg => (w, Raised (OSError msg))
            | None =>
                (started (set_fs (match fs w !! log_file with
                                  | None => <[log_file := IsFile]> (fs w)
                                  | Some _ => fs w
                                  end) w),
                 Ok (inr (mkLoggingConfig numeric
                            [StreamHandler; FileHandler log_file])))
            end)
  ∧ (∀ msg, r.2 ≠ Ok (inl msg))
  ∧ (∀ cfg, r.2 = Ok (inr cfg) →
       level cfg = numeric
       ∧ events_since w r.1 = [Log INFO start]
       ∧ emitted (level cfg) (events_since w r.1)
         = match c with ChDEBUG | ChINFO => [start] | _ => [] end
       ∧ (log_file ≠ EmptyString → fs r.1 !! log_file = Some IsFile)).
Proof.
  intros numeric start started r.
  assert (Hr : r = (if log_file =? EmptyString
       then (started w, Ok (inr (mkLoggingConfig numeric [StreamHandler])))
       else match open_error (fs w) open_denied log_file with
            | Some msg => (w, Raised (OSError msg))
            | None =>
                (started (set_fs (match fs w !! log_file with
                                  | None => <[log_file := IsFile]> (fs w)
                                  | Some _ => fs w
                                  end) w),
                 Ok (inr (mkLoggingConfig numeric
                            [StreamHandler; FileHandler log_file])))
            end)).
  { subst r. unfold cli. rewrite level_of_choice. fold numeric.
    unfold logging_FileHandler, mbind, Py_bind.
    destruct (log_file =? EmptyString); [reflexivity|].
    destruct (open_error (fs w) open_denied log_file); reflexivity. }
  split; [exact Hr|]. rewrite Hr. clear Hr r.
  destruct (log_file =? EmptyString) eqn:Hempty.
  - split; [discriminate|]. intros cfg Hcfg. inversion Hcfg; subst cfg.
    cbn [fst snd level]. subst started. cbv beta.
    rewrite events_since_set_trace.
    split; [reflexivity|]. split; [reflexivity|].
    split; [destruct c; reflexivity|].
    intros Hne. apply String.eqb_eq in Hempty. contradiction.
  - destruct (open_error (fs w) open_denied log_file) as [msg|] eqn:Hopen.
    + split; [discriminate|]. intros cfg Hcfg. discriminate Hcfg.
    + split; [discriminate|]. intros cfg Hcfg. inversion Hcfg; subst cfg.
      cbn [fst snd level]. subst started. cbv beta.
      split; [reflexivity|].
      split; [unfold events_since; cbn; apply drop_app_length|].
      split; [unfold events_since; cbn; rewrite drop_app_length;
              destruct c; reflexivity|].
      intros _. cbn. unfold open_error in Hopen.
      destruct (fs w !! log_file) as [[|]|] eqn:Hfile.
      * exact Hfile.
      * discriminate Hopen.
      * apply lookup_insert_eq.
Qed.

(** X7 where a directory has the name of the log file, and for the level
    WARNING with the default log file. *)
Lemma cli_resolves_log_level_witness :
  cli (λ _, None) ChINFO "./logs"
    (world_of {["./logs" := IsDir]} "20240101_120000" (λ _, None) (Exited 0))
  = (world_of {["./logs" := IsDir]} "20240101_120000" (λ _, None) (Exited 0),
     Raised (OSError "[Errno 21] Is a directory"))
  ∧ (cli (λ _, None) ChWARNING "./backup_manager.log" (fresh_world (Exited 0))).2
    = Ok (inr (mkLoggingConfig 30
                 [StreamHandler; FileHandler "./backup_manager.log"]))
  ∧ emitted 30 (events_since (fresh_world (Exited 0))
      (cli (λ _, None) ChWARNING "./backup_manager.log" (fresh_world (Exited 0))).1)
    = [].
Proof.
  split.
  - rewrite (proj1 (cli_resolves_log_level (λ _, None) ChINFO "./logs"
       (world_of {["./logs" := IsDir]} "20240101_120000" (λ _, None) (Exited 0)))).
    reflexivity.
  - assert (H0 : (cli (λ _, None) ChWARNING "./backup_manager.log"
                    (fresh_world (Exited 0))).2
                 = Ok (inr (mkLoggingConfig 30
                              [StreamHandler; FileHandler "./backup_manager.log"])))
      by reflexivity.
    split; [exact H0|].
    destruct (cli_resolves_log_level (λ _, None) ChWARNING "./backup_manager.log"
                (fresh_world (Exited 0))) as (_ & _ & Hcfg).
    destruct (Hcfg _ H0) as (_ & _ & Hemit & _). exact Hemit.
Defined.

(** *** The file system *)

Lemma mkdir_missing_adds d (m : gmap string Entry) p :
  mkdir_missing d m !! p = m !! p
  ∨ (m !! p = None ∧ mkdir_missing d m !! p = Some IsDir ∧ p = d).
Proof.
  unfold mkdir_missing. destruct (m !! d) as [e|] eqn:Ed; [now left|].
  destruct (decide (d = p)) as [->|Hne].
  - right. now rewrite lookup_insert_eq.
  - left. now apply lookup_insert_ne.
Qed.

Lemma foldr_mkdir_missing_adds ds (m : gmap string Entry) p :
  foldr mkdir_missing m ds !! p = m !! p
  ∨ (m !! p = None ∧ foldr mkdir_missing m ds !! p = Some IsDir ∧ p ∈ ds).
Proof.
  induction ds as [|d ds IH]; [now left|]. cbn [foldr].
  destruct (mkdir_missing_adds d (foldr mkdir_missing m ds) p)
    as [Hsame|(Hnone & Hdir & ->)].
  - rewrite Hsame. destruct IH as [IH|(Hn & Hd & Hin)]; [now left|right].
    split; [exact Hn|]. split; [exact Hd|]. now apply list_elem_of_further.
  - destruct IH as [IH|(Hn & Hd & Hin)].
    + right. rewrite <- IH. split; [exact Hnone|]. split; [exact Hdir|].
      apply list_elem_of_here.
    + rewrite Hd in Hnone. discriminate Hnone.
Qed.

Lemma makedirs_adds m denied name exist_ok m' p :
  makedirs m denied name exist_ok = inl m' →
  m' !! p = m !! p
  ∨ (m !! p = None ∧ m' !! p = Some IsDir ∧ p ∈ name :: parents EmptyString name).
Proof.
  unfold makedirs. intros H.
  destruct (m !! name) as [[|]|] eqn:E.
  - discriminate.
  - destruct exist_ok; [|discriminate]. inversion H. now left.
  - destruct (name =? EmptyString); [discriminate|].
    destruct (existsb _ _); [discriminate|].
    destruct (denied name); [discriminate|].
    inversion H; subst m'.
    apply (foldr_mkdir_missing_adds (name :: parents EmptyString name)).
Qed.

(** X8. Lines 73 and 127-179.  What the program itself does to the file
    system: [restore] nothing at all; [backup] leaves every entry that is
    there as it is (nothing is removed, replaced or turned into something
    else) and creates no file; all it may add is the backup directory and
    directories above it. *)
Theorem program_only_adds_directories
    host port username dbname backup_dir dump_format backup_file password w p :
  let b := backup host port username dbname backup_dir dump_format password w in
  let r := restore host port username dbname backup_file password w in
  fs r.1 = fs w
  ∧ (fs b.1 !! p = fs w !! p
     ∨ (fs w !! p = None ∧ fs b.1 !! p = Some IsDir
        ∧ p ∈ backup_dir :: parents EmptyString backup_dir)).
Proof.
  intros b r. subst b r. split.
  - rewrite restore_run.
    destruct (child w _ _) as [rc|msg]; [destruct (rc =? 0)%Z|]; reflexivity.
  - rewrite backup_fs.
    destruct (makedirs _ _ _ _) as [m|msg] eqn:Hmk; [|now left].
    eapply makedirs_adds, Hmk.
Qed.

(** *** The command as a record of the request *)

(** X9. Lines 84-106 and 139-170.  The argument vector keeps every
    parameter apart: two [pg_dump] commands are equal only if host, port,
    user, database, format and path are, and two restore commands only if
    host, port, user, database and path are. *)
Theorem commands_determine_their_parameters
    host port username dbname dump_format path
    host' port' username' dbname' dump_format' path' isdir isdir' :
  (backup_cmd host port username dbname dump_format path
   = backup_cmd host' port' username' dbname' dump_format' path' →
   host = host' ∧ port = port' ∧ username = username' ∧ dbname = dbname'
   ∧ dump_format = dump_format' ∧ path = path')
  ∧ (restore_cmd isdir host port username dbname path
     = restore_cmd isdir' host' port' username' dbname' path' →
     host = host' ∧ port = port' ∧ username = username' ∧ dbname = dbname'
     ∧ path = path').
Proof.
  split.
  - unfold backup_cmd.
    destruct (dump_format =? "d"), (dump_format' =? "d"); intros H;
      inversion H as [[Hh Hp Hu Hf Hpath Hd]]; try discriminate;
      apply str_inj in Hp; auto 10.
  - unfold restore_cmd.
    destruct isdir, isdir', (endswith path ".sql"), (endswith path' ".sql");
      intros H; inversion H as [[Hh Hp Hu Hd Hpath]]; try discriminate;
      apply str_inj in Hp; auto 10.
Qed.

Lemma commands_determine_their_parameters_witness :
  (5432 ≠ 5433)%Z
  ∧ backup_cmd "localhost" 5432 "alice" "orders" "c" "./backups/x.dump"
    ≠ backup_cmd "localhost" 5433 "alice" "orders" "c" "./backups/x.dump".
Proof.
  assert (H0 : (5432 ≠ 5433)%Z) by discriminate.
  split; [exact H0|]. intros E.
  destruct (proj1 (commands_determine_their_parameters
                     "localhost" 5432%Z "alice" "orders" "c" "./backups/x.dump"
                     "localhost" 5433%Z "alice" "orders" "c" "./backups/x.dump"
                     false false) E) as (_ & Hp & _).
  exact (H0 Hp).
Defined.

(** X10. Lines 108-110 and 172-174.  The log tells what is run: in every
    run of [backup] and of [restore], the DEBUG records are, one for one
    and in order, [Running command: ] followed by the arguments, joined
    by single spaces, of the commands handed to [subprocess.run]. *)
Theorem logged_command_is_the_command_run
    host port username dbname backup_dir dump_format backup_file password w :
  let line cmd := Str ("Running command: " +:+ join " " cmd) in
  debug_records (events_since w
    (backup host port username dbname backup_dir dump_format password w).1)
  = line <$> (runs (events_since w
      (backup host port username dbname backup_dir dump_format password w).1)).*1
  ∧ debug_records (events_since w
      (restore host port username dbname backup_file password w).1)
    = line <$> (runs (events_since w
        (restore host port username dbname backup_file password w).1)).*1.
Proof.
  intros line. rewrite backup_run, restore_run. split.
  - destruct (makedirs _ _ _ _) as [m|msg].
    + destruct (child w _ _) as [rc|msg]; [destruct (rc =? 0)%Z|];
        cbn [fst]; rewrite events_since_ran; reflexivity.
    + cbn [fst]. rewrite events_since_set_trace. reflexivity.
  - destruct (child w _ _) as [rc|msg]; [destruct (rc =? 0)%Z|];
      cbn [fst]; rewrite events_since_ran; reflexivity.
Qed.
